(** * Git MCP server: the command adapter of [git_mcp_server.py]

    A shallow embedding of the six tool handlers ([git_clone],
    [git_commit], [git_push], [git_status], [git_branch_list],
    [git_create_branch]) and of the Python built-ins they rely on.

    - A Python [str] is a [string]; each [ascii] stands for a code point
      below 256.
    - A Python [dict] with string keys is an association list in insertion
      order.
    - [subprocess.run] is an oracle on an abstract world.  Every call is
      appended to a log carried by the state, together with its outcome, so
      that statements about which commands were issued, and in which order,
      are statements about that log.
    - Exceptions are explicit: handlers live in a state-and-exception monad
      and [try ... except Exception] is [try_except]. *)

From Stdlib Require Import String Ascii List ZArith NArith Bool Lia.
Import ListNotations.
Local Open Scope string_scope.
Local Open Scope list_scope.

(** ** Python string built-ins *)

Module PyStr.

(** [str.isspace] on one character, for code points below 256:
    TAB..CR, FS..US, SPACE, NEL and NBSP. *)
Definition isspace (c : ascii) : bool :=
  let n := N_of_ascii c in
  (((9 <=? n) && (n <=? 13)) || ((28 <=? n) && (n <=? 32))
   || (n =? 133) || (n =? 160))%N.

(** Drop the leading characters satisfying [p]. *)
Fixpoint lstrip_by (p : ascii -> bool) (s : string) : string :=
  match s with
  | EmptyString => EmptyString
  | String c s' => if p c then lstrip_by p s' else s
  end.

(** Drop the trailing characters satisfying [p]. *)
Fixpoint rstrip_by (p : ascii -> bool) (s : string) : string :=
  match s with
  | EmptyString => EmptyString
  | String c s' =>
      match rstrip_by p s' with
      | EmptyString => if p c then EmptyString else String c EmptyString
      | r => String c r
      end
  end.

(** [s.strip()]: whitespace removed at both ends. *)
Definition strip (s : string) : string :=
  rstrip_by isspace (lstrip_by isspace s).

Fixpoint mem_char (c : ascii) (chars : string) : bool :=
  match chars with
  | EmptyString => false
  | String d chars' => Ascii.eqb c d || mem_char c chars'
  end.

(** [s.lstrip(chars)]: [chars] is a set of characters, not a prefix. *)
Definition lstrip (chars : string) (s : string) : string :=
  lstrip_by (fun c => mem_char c chars) s.

(** [s.split(sep)] for a one-character separator: never empty, and a
    separator at the end produces a final empty field. *)
Fixpoint split (sep : ascii) (s : string) : list string :=
  match s with
  | EmptyString => [EmptyString]
  | String c s' =>
      if Ascii.eqb c sep then EmptyString :: split sep s'
      else match split sep s' with
           | [] => [String c EmptyString]
           | w :: ws => String c w :: ws
           end
  end.

(** Truth value of a string in a condition. *)
Definition truthy (s : string) : bool :=
  match s with EmptyString => false | _ => true end.

Definition len (s : string) : Z := Z.of_nat (String.length s).

Definition LF : ascii := "010"%char.

End PyStr.

(** ** Response dictionaries *)

Inductive PyValue : Type :=
| PyBool (b : bool)
| PyStr (s : string)
| PyList (l : list string).

Definition Dict : Type := list (string * PyValue).

Fixpoint dict_get (k : string) (d : Dict) : option PyValue :=
  match d with
  | [] => None
  | (k', v) :: d' => if String.eqb k k' then Some v else dict_get k d'
  end.

Definition dict_keys (d : Dict) : list string := map fst d.

(** ** Processes and exceptions *)

Record CompletedProcess : Type := mkCompleted {
  returncode : Z;
  stdout : string;
  stderr : string
}.

(** What [subprocess.run] can raise: [SpawnError] stands for any
    [Exception] raised while launching or reading the process (missing
    tool, permission denied, bad working directory, ...), identified by its
    [str()]; [CalledProcessError] is raised by [check=True] on a non-zero
    exit status. *)
Inductive Exception : Type :=
| SpawnError (msg : string)
| CalledProcessError (code : Z) (cmd : list string).

(** One logged call of [subprocess.run]. *)
Record Call : Type := mkCall {
  call_args : list string;
  call_capture : bool;
  call_check : bool;
  call_outcome : string + CompletedProcess
}.

(** The exception a logged call ended with, if any. *)
Definition call_raised (c : Call) : option Exception :=
  match call_outcome c with
  | inl msg => Some (SpawnError msg)
  | inr r =>
      if call_check c && negb (returncode r =? 0)%Z
      then Some (CalledProcessError (returncode r) (call_args c))
      else None
  end.

(** The process of a logged call ran and exited with status 0. *)
Definition call_exit0 (c : Call) : Prop :=
  exists r, call_outcome c = inr r /\ returncode r = 0%Z.

Inductive Result (A : Type) : Type :=
| Ok (a : A)
| Raised (e : Exception).
Arguments Ok {A} a.
Arguments Raised {A} e.

Definition with_default {A : Type} (d : A) (o : option A) : A :=
  match o with Some a => a | None => d end.

(** ** The adapter *)

Section Adapter.

(** The host: the state of everything outside the adapter (file system,
    repository, remote), the behaviour of launching a command in it
    (arguments, whether the output is captured), and the text of a
    [CalledProcessError]. *)
Variable World : Type.
Variable spawn :
  list string -> bool -> World -> (string + CompletedProcess) * World.
Variable cpe_str : Z -> list string -> string.

Record State : Type := mkState {
  world : World;
  calls : list Call
}.

Definition M (A : Type) : Type := State -> Result A * State.

Definition ret {A} (a : A) : M A := fun st => (Ok a, st).

Definition bind {A B} (m : M A) (k : A -> M B) : M B :=
  fun st =>
    match m st with
    | (Ok a, st') => k a st'
    | (Raised e, st') => (Raised e, st')
    end.

Definition try_except {A} (body : M A) (handler : Exception -> M A) : M A :=
  fun st =>
    match body st with
    | (Ok a, st') => (Ok a, st')
    | (Raised e, st') => handler e st'
    end.

Notation "x <- m ;; k" := (bind m (fun x => k))
  (at level 61, m at next level, right associativity).
Notation "m ;;; k" := (bind m (fun _ => k))
  (at level 61, right associativity).

(** [str(e)] *)
Definition str_exn (e : Exception) : string :=
  match e with
  | SpawnError msg => msg
  | CalledProcessError code cmd => cpe_str code cmd
  end.

(** [subprocess.run(args, capture_output=..., text=True, check=...)] *)
Definition subprocess_run (args : list string) (capture_output check : bool)
  : M CompletedProcess :=
  fun st =>
    let (out, w') := spawn args capture_output (world st) in
    let st' :=
      {| world := w';
         calls := calls st ++ [mkCall args capture_output check out] |} in
    match out with
    | inl msg => (Raised (SpawnError msg), st')
    | inr r =>
        if check && negb (returncode r =? 0)%Z
        then (Raised (CalledProcessError (returncode r) args), st')
        else (Ok r, st')
    end.

(** The [except Exception as e] branch shared by the six handlers. *)
Definition error_response (e : Exception) : Dict :=
  [("success", PyBool false); ("error", PyStr (str_exn e))].

Definition git_clone (repository_url : string) (destination : option string)
  : M Dict :=
  try_except
    (let cmd := ["git"; "clone"; repository_url] in
     let cmd :=
       match destination with
       | Some d => if PyStr.truthy d then cmd ++ [d] else cmd
       | None => cmd
       end in
     result <- subprocess_run cmd true false ;;
     ret [("success", PyBool (returncode result =? 0)%Z);
          ("output", PyStr (stdout result));
          ("error", PyStr (stderr result))])
    (fun e => ret (error_response e)).

(** [for file in files: subprocess.run(["git", "add", file], check=True)] *)
Fixpoint stage_each (files : list string) : M unit :=
  match files with
  | [] => ret tt
  | file :: files' =>
      subprocess_run ["git"; "add"; file] false true ;;;
      stage_each files'
  end.

Definition git_commit (message : string) (files : option (list string))
  : M Dict :=
  try_except
    (match files with
     | Some (f :: fs) => stage_each (f :: fs)
     | _ => subprocess_run ["git"; "add"; "."] false true ;;; ret tt
     end ;;;
     result <- subprocess_run ["git"; "commit"; "-m"; message] true false ;;
     ret [("success", PyBool (returncode result =? 0)%Z);
          ("commit_message", PyStr message);
          ("output", PyStr (stdout result))])
    (fun e => ret (error_response e)).

(** Omitted arguments ([None]) take the defaults of the signature. *)
Definition git_push (remote branch : option string) : M Dict :=
  let remote := with_default "origin" remote in
  let branch := with_default "main" branch in
  try_except
    (result <- subprocess_run ["git"; "push"; remote; branch] true false ;;
     ret [("success", PyBool (returncode result =? 0)%Z);
          ("output", PyStr (stdout result));
          ("error", PyStr (stderr result))])
    (fun e => ret (error_response e)).

Definition git_status : M Dict :=
  try_except
    (result <- subprocess_run ["git"; "status"; "--porcelain"] true false ;;
     ret [("success", PyBool (returncode result =? 0)%Z);
          ("status", PyStr (stdout result));
          ("clean", PyBool (PyStr.len (PyStr.strip (stdout result)) =? 0)%Z)])
    (fun e => ret (error_response e)).

(** [[b.strip().lstrip("* ") for b in out.split("\n") if b.strip()]] *)
Definition branch_names (out : string) : list string :=
  map (fun b => PyStr.lstrip "* " (PyStr.strip b))
      (filter (fun b => PyStr.truthy (PyStr.strip b))
              (PyStr.split PyStr.LF out)).

Definition git_branch_list : M Dict :=
  try_except
    (result <- subprocess_run ["git"; "branch"; "-a"] true false ;;
     let branches := branch_names (stdout result) in
     ret [("success", PyBool (returncode result =? 0)%Z);
          ("branches", PyList branches)])
    (fun e => ret (error_response e)).

Definition git_create_branch (branch_name : string) (checkout : option bool)
  : M Dict :=
  let checkout := with_default true checkout in
  try_except
    (let cmd := ["git"; "branch"; branch_name] in
     result <- subprocess_run cmd true false ;;
     (if checkout && (returncode result =? 0)%Z
      then subprocess_run ["git"; "checkout"; branch_name] false true ;;; ret tt
      else ret tt) ;;;
     ret [("success", PyBool (returncode result =? 0)%Z);
          ("branch", PyStr branch_name);
          ("checked_out", PyBool checkout)])
    (fun e => ret (error_response e)).

(** The six registered tools as one request type. *)
Inductive OperationRequest : Type :=
| Clone (repository_url : string) (destination : option string)
| Commit (message : string) (files : option (list string))
| Push (remote branch : option string)
| Status
| BranchList
| CreateBranch (branch_name : string) (checkout : option bool).

Definition invoke (req : OperationRequest) : M Dict :=
  match req with
  | Clone u d => git_clone u d
  | Commit m fs => git_commit m fs
  | Push r b => git_push r b
  | Status => git_status
  | BranchList => git_branch_list
  | CreateBranch n c => git_create_branch n c
  end.

(** The same handler invoked two times in a row, both responses kept. *)
Definition twice {A} (m : M A) : M (A * A) :=
  first <- m ;; second <- m ;; ret (first, second).

End Adapter.

Arguments mkState {World} world calls.
Arguments world {World} s.
Arguments calls {World} s.
Arguments ret {World A} a st.
Arguments bind {World A B} m k st.
Arguments try_except {World A} body handler st.
Arguments subprocess_run {World} spawn args capture_output check st.
Arguments stage_each {World} spawn files st.
Arguments git_clone {World} spawn cpe_str repository_url destination st.
Arguments git_commit {World} spawn cpe_str message files st.
Arguments git_push {World} spawn cpe_str remote branch st.
Arguments git_status {World} spawn cpe_str st.
Arguments git_branch_list {World} spawn cpe_str st.
Arguments git_create_branch {World} spawn cpe_str branch_name checkout st.
Arguments invoke {World} spawn cpe_str req st.
Arguments twice {World A} m st.

(** The command lines the handlers build. *)
Definition add_cmd (path : string) : list string := ["git"; "add"; path].
Definition commit_cmd (message : string) : list string :=
  ["git"; "commit"; "-m"; message].
Definition status_cmd : list string := ["git"; "status"; "--porcelain"].
Definition branch_list_cmd : list string := ["git"; "branch"; "-a"].

(** What [git_commit] stages: the listed paths, or the whole working tree
    when the list is absent or empty. *)
Definition stage_targets (files : option (list string)) : list string :=
  match files with
  | Some (f :: fs) => f :: fs
  | _ => ["."]
  end.

(** ** The parsing rules in the words of the specification *)

Module Spec.

Definition text : Type := list ascii.

Fixpoint drop_while (p : ascii -> bool) (l : text) : text :=
  match l with
  | [] => []
  | c :: l' => if p c then drop_while p l' else l
  end.

(** Trimming: whitespace dropped at the front, and at the back by going
    through the reversed text. *)
Definition trim (l : text) : text :=
  rev (drop_while PyStr.isspace (rev (drop_while PyStr.isspace l))).

(** Lines of a text, collected with an accumulator for the current line. *)
Fixpoint lines_from (cur : text) (l : text) : list text :=
  match l with
  | [] => [rev cur]
  | c :: l' =>
      if Ascii.eqb c PyStr.LF then rev cur :: lines_from [] l'
      else lines_from (c :: cur) l'
  end.

Definition lines (raw : string) : list text :=
  lines_from [] (list_ascii_of_string raw).

Definition blank (l : text) : bool :=
  match trim l with [] => true | _ :: _ => false end.

(** As the specification words it: leading whitespace, then one marker
    character followed by one space. *)
Definition strip_marker (l : text) : text :=
  match drop_while PyStr.isspace l with
  | "*"%char :: " "%char :: name => name
  | l' => l'
  end.

Definition branch_list (raw : string) : list string :=
  map (fun l => string_of_list_ascii (strip_marker l))
      (filter (fun l => negb (blank l)) (lines raw)).

(** The amended wording: whitespace trimmed at both ends, then every
    leading character that is the marker or a space. *)
Definition marker_or_space (c : ascii) : bool :=
  Ascii.eqb c "*"%char || Ascii.eqb c " "%char.

Definition strip_markers (l : text) : text :=
  drop_while marker_or_space (trim l).

Definition branch_list_trimmed (raw : string) : list string :=
  map (fun l => string_of_list_ascii (strip_markers l))
      (filter (fun l => negb (blank l)) (lines raw)).

(** Every character of the text is whitespace. *)
Definition all_whitespace (s : string) : bool :=
  forallb PyStr.isspace (list_ascii_of_string s).

End Spec.

(** ** A scripted host

    The world is the list of outcomes the next launches will have; a
    launch consumes the head, and succeeds silently once the script is
    exhausted. *)

Definition Script : Type := list (string + CompletedProcess).

Definition scripted_spawn (args : list string) (capture : bool) (w : Script)
  : (string + CompletedProcess) * Script :=
  match w with
  | [] => (inr (mkCompleted 0 "" ""), [])
  | o :: w' => (o, w')
  end.

(** A stand-in for the text of a [CalledProcessError]. *)
Definition scripted_cpe_str (code : Z) (cmd : list string) : string :=
  "Command '" ++ String.concat " " cmd ++ "' returned non-zero exit status.".

Definition exited (code : Z) (out err : string) : string + CompletedProcess :=
  inr (mkCompleted code out err).

Definition script (w : Script) : State Script := mkState w [].

Definition NL : string := String PyStr.LF EmptyString.

(** The most calls of [subprocess.run] a request can lead to. *)
Definition max_calls (req : OperationRequest) : nat :=
  match req with
  | Commit _ files => S (List.length (stage_targets files))
  | CreateBranch _ _ => 2
  | _ => 1
  end.

(** ** Branch listings as git prints them

    One line per branch: the marker and a space for the current branch,
    two spaces for the others, then the name, then a line feed. *)

(** A name that can stand on such a line: not empty, no line feed, no
    whitespace at either end, not starting with the marker. *)
Definition plain_name (name : string) : bool :=
  negb (String.eqb name "")
  && String.eqb (PyStr.lstrip_by PyStr.isspace name) name
  && String.eqb (PyStr.rstrip_by PyStr.isspace name) name
  && String.eqb (PyStr.lstrip "* " name) name
  && negb (existsb (Ascii.eqb PyStr.LF) (list_ascii_of_string name)).

Definition listing_line (entry : bool * string) : string :=
  ((if fst entry then "* " else "  ") ++ snd entry)%string.

Fixpoint listing (entries : list (bool * string)) : string :=
  match entries with
  | [] => EmptyString
  | entry :: entries' =>
      (listing_line entry ++ NL ++ listing entries')%string
  end.

(** ** Facts about the string built-ins *)

Example split_keeps_last_field :
  PyStr.split PyStr.LF ("a" ++ NL ++ "b" ++ NL) = ["a"; "b"; ""].
Proof. reflexivity. Qed.

Example split_empty : PyStr.split PyStr.LF "" = [""].
Proof. reflexivity. Qed.

Example strip_both_ends : PyStr.strip ("  M a b " ++ NL) = "M a b".
Proof. reflexivity. Qed.

Example lstrip_is_a_character_set : PyStr.lstrip "* " "* * main *" = "main *".
Proof. reflexivity. Qed.

Section StringFacts.

Variable p : ascii -> bool.

Lemma lstrip_by_chars (s : string) :
  list_ascii_of_string (PyStr.lstrip_by p s)
  = Spec.drop_while p (list_ascii_of_string s).
Proof.
  induction s as [|c s IH]; simpl; [reflexivity|].
  destruct (p c); [exact IH | reflexivity].
Qed.

Lemma drop_while_nil (l : Spec.text) :
  Spec.drop_while p l = [] <-> forallb p l = true.
Proof.
  induction l as [|c l IH]; simpl; [tauto|].
  destruct (p c); simpl; [exact IH|].
  split; discriminate.
Qed.

Lemma drop_while_snoc (l : Spec.text) (c : ascii) :
  Spec.drop_while p (l ++ [c])
  = if forallb p l then (if p c then [] else [c])
    else Spec.drop_while p l ++ [c].
Proof.
  induction l as [|d l IH]; simpl; [reflexivity|].
  destruct (p d); simpl; [exact IH | reflexivity].
Qed.

Lemma forallb_drop_while (l : Spec.text) :
  forallb p (Spec.drop_while p l) = forallb p l.
Proof.
  induction l as [|c l IH]; simpl; [reflexivity|].
  destruct (p c) eqn:E; simpl; [exact IH | now rewrite E].
Qed.

Lemma forallb_rev (l : Spec.text) : forallb p (rev l) = forallb p l.
Proof.
  induction l as [|c l IH]; simpl; [reflexivity|].
  rewrite forallb_app, IH. simpl. rewrite andb_true_r. apply andb_comm.
Qed.

Lemma rstrip_by_chars (s : string) :
  list_ascii_of_string (PyStr.rstrip_by p s)
  = rev (Spec.drop_while p (rev (list_ascii_of_string s))).
Proof.
  induction s as [|c s IH]; simpl; [reflexivity|].
  rewrite drop_while_snoc.
  destruct (PyStr.rstrip_by p s) as [|d r] eqn:E; simpl in IH.
  - assert (H : forallb p (rev (list_ascii_of_string s)) = true).
    { apply drop_while_nil.
      destruct (Spec.drop_while p (rev (list_ascii_of_string s))) as [|x xs];
        [reflexivity|].
      simpl in IH. symmetry in IH. now apply app_eq_nil in IH. }
    rewrite H. destruct (p c); reflexivity.
  - assert (H : forallb p (rev (list_ascii_of_string s)) = false).
    { destruct (forallb p (rev (list_ascii_of_string s))) eqn:F;
        [|reflexivity].
      apply drop_while_nil in F. rewrite F in IH. discriminate. }
    rewrite H, rev_app_distr. simpl. now rewrite <- IH.
Qed.

End StringFacts.

Lemma drop_while_ext (p q : ascii -> bool) (l : Spec.text) :
  (forall c, p c = q c) -> Spec.drop_while p l = Spec.drop_while q l.
Proof.
  intros H. induction l as [|c l IH]; simpl; [reflexivity|].
  rewrite <- H. destruct (p c); [exact IH | reflexivity].
Qed.

Lemma strip_chars (s : string) :
  list_ascii_of_string (PyStr.strip s) = Spec.trim (list_ascii_of_string s).
Proof.
  unfold PyStr.strip, Spec.trim. now rewrite rstrip_by_chars, lstrip_by_chars.
Qed.

Lemma trim_nil (l : Spec.text) :
  Spec.trim l = [] <-> forallb PyStr.isspace l = true.
Proof.
  unfold Spec.trim.
  rewrite <- forallb_drop_while, <- forallb_rev, <- drop_while_nil.
  split; intros H.
  - destruct (Spec.drop_while _ (rev _)); [reflexivity|].
    simpl in H. now apply app_eq_nil in H.
  - now rewrite H.
Qed.

Lemma truthy_chars (s : string) :
  PyStr.truthy s = match list_ascii_of_string s with [] => false | _ => true end.
Proof. destruct s; reflexivity. Qed.

Lemma truthy_strip (s : string) :
  PyStr.truthy (PyStr.strip s) = negb (Spec.blank (list_ascii_of_string s)).
Proof.
  unfold Spec.blank. rewrite truthy_chars, strip_chars.
  destruct (Spec.trim _); reflexivity.
Qed.

Lemma strip_all_whitespace (s : string) :
  (PyStr.len (PyStr.strip s) =? 0)%Z = Spec.all_whitespace s.
Proof.
  unfold Spec.all_whitespace, PyStr.len.
  destruct (forallb PyStr.isspace (list_ascii_of_string s)) eqn:F.
  - apply trim_nil in F. rewrite <- strip_chars in F.
    destruct (PyStr.strip s); [reflexivity | discriminate].
  - destruct (PyStr.strip s) as [|c r] eqn:E; [|reflexivity].
    assert (H : Spec.trim (list_ascii_of_string s) = [])
      by now rewrite <- strip_chars, E.
    apply trim_nil in H. congruence.
Qed.

Lemma split_not_nil (sep : ascii) (s : string) : PyStr.split sep s <> [].
Proof.
  destruct s as [|c s]; simpl; [discriminate|].
  destruct (Ascii.eqb c sep); [discriminate|].
  destruct (PyStr.split sep s); discriminate.
Qed.

Lemma lines_from_split (s : string) (cur : Spec.text) :
  Spec.lines_from cur (list_ascii_of_string s)
  = match map list_ascii_of_string (PyStr.split PyStr.LF s) with
    | w :: ws => (rev cur ++ w) :: ws
    | [] => [rev cur]
    end.
Proof.
  revert cur. induction s as [|c s IH]; intros cur; simpl.
  - now rewrite app_nil_r.
  - destruct (Ascii.eqb c PyStr.LF); simpl.
    + rewrite app_nil_r, IH. simpl.
      pose proof (split_not_nil PyStr.LF s) as N.
      destruct (PyStr.split PyStr.LF s); [contradiction | reflexivity].
    + rewrite IH. simpl.
      destruct (PyStr.split PyStr.LF s); simpl;
        [reflexivity | now rewrite <- app_assoc].
Qed.

Lemma lines_split (raw : string) :
  Spec.lines raw = map list_ascii_of_string (PyStr.split PyStr.LF raw).
Proof.
  unfold Spec.lines. rewrite lines_from_split.
  pose proof (split_not_nil PyStr.LF raw) as N.
  destruct (PyStr.split PyStr.LF raw); [contradiction | reflexivity].
Qed.

Lemma filter_map_comm {A B} (f : A -> B) (g : B -> bool) (l : list A) :
  filter g (map f l) = map f (filter (fun a => g (f a)) l).
Proof.
  induction l as [|a l IH]; simpl; [reflexivity|].
  destruct (g (f a)); simpl; now rewrite IH.
Qed.

Lemma lstrip_marker_chars (s : string) :
  PyStr.lstrip "* " s
  = string_of_list_ascii
      (Spec.drop_while Spec.marker_or_space (list_ascii_of_string s)).
Proof.
  rewrite <- (string_of_list_ascii_of_string (PyStr.lstrip "* " s)).
  unfold PyStr.lstrip. rewrite lstrip_by_chars. f_equal.
  apply drop_while_ext. intros c. unfold Spec.marker_or_space. simpl.
  now rewrite orb_false_r.
Qed.

Lemma branch_names_trimmed (raw : string) :
  branch_names raw = Spec.branch_list_trimmed raw.
Proof.
  unfold branch_names, Spec.branch_list_trimmed.
  rewrite lines_split, filter_map_comm, map_map.
  erewrite filter_ext by (intros b; apply truthy_strip).
  apply map_ext. intros b. unfold Spec.strip_markers.
  now rewrite lstrip_marker_chars, strip_chars.
Qed.

(** ** Facts about the handlers *)

Lemma call_exit0_not_raised (c : Call) : call_exit0 c -> call_raised c = None.
Proof.
  intros (r & Ho & Hr). unfold call_raised. rewrite Ho, Hr. simpl.
  now rewrite andb_false_r.
Qed.

Lemma checked_call_exit0 (c : Call) :
  call_check c = true -> call_raised c = None -> call_exit0 c.
Proof.
  unfold call_raised, call_exit0. intros Hc.
  destruct (call_outcome c) as [msg|r]; [discriminate|].
  rewrite Hc. simpl. destruct (returncode r =? 0)%Z eqn:E; [|discriminate].
  intros _. exists r. split; [reflexivity | now apply Z.eqb_eq].
Qed.

Lemma add_cmd_not_commit_cmd (path message : string) :
  add_cmd path <> commit_cmd message.
Proof. discriminate. Qed.

Section AdapterFacts.

Variable World : Type.
Variable spawn :
  list string -> bool -> World -> (string + CompletedProcess) * World.
Variable cpe_str : Z -> list string -> string.

(** One call of [subprocess.run]: the call is logged with the outcome the
    host gave it, and the value or exception follows from the logged
    call. *)
Lemma subprocess_run_logged (args : list string) (cap chk : bool)
      (st : State World) :
  let c := mkCall args cap chk (fst (spawn args cap (world st))) in
  subprocess_run spawn args cap chk st
  = (match call_raised c, call_outcome c with
     | Some e, _ => Raised e
     | None, inr r => Ok r
     | None, inl msg => Raised (SpawnError msg)
     end,
     mkState (snd (spawn args cap (world st))) (calls st ++ [c])).
Proof.
  unfold subprocess_run, call_raised. simpl.
  destruct (spawn args cap (world st)) as [[msg|r] w']; simpl;
    [reflexivity|].
  destruct (chk && negb (returncode r =? 0)%Z); reflexivity.
Qed.

(** The staging loop either stages every path, each call exiting with
    status 0, or stops at the first call that does not. *)
Lemma stage_each_cases (fs : list string) (st : State World) :
  (exists staged,
      fst (stage_each spawn fs st) = Ok tt
      /\ calls (snd (stage_each spawn fs st)) = calls st ++ staged
      /\ map call_args staged = map add_cmd fs
      /\ Forall call_exit0 staged)
  \/ (exists pre bad post good failed e,
      fs = pre ++ bad :: post
      /\ fst (stage_each spawn fs st) = Raised e
      /\ calls (snd (stage_each spawn fs st)) = calls st ++ good ++ [failed]
      /\ map call_args good = map add_cmd pre
      /\ Forall call_exit0 good
      /\ call_args failed = add_cmd bad
      /\ call_raised failed = Some e
      /\ ~ call_exit0 failed).
Proof.
  revert st. induction fs as [|f fs IH]; intros st.
  - left. exists []. simpl. rewrite app_nil_r. auto.
  - simpl. unfold bind. rewrite subprocess_run_logged.
    set (c := mkCall _ _ _ _).
    destruct (call_raised c) as [e|] eqn:R.
    + right. exists [], f, fs, [], c, e. simpl.
      repeat split; auto.
      intros X. apply call_exit0_not_raised in X. congruence.
    + assert (X : call_exit0 c) by (apply checked_call_exit0; auto).
      destruct X as (r & Ho & Hr). rewrite Ho. cbv beta iota.
      set (st1 := mkState _ _).
      assert (Xc : call_exit0 c) by (exists r; auto).
      destruct (IH st1) as
        [(staged & H1 & H2 & H3 & H4)
        |(pre & bad & post & good & failed & e & H1 & H2 & H3 & H4 & H5 & H6)].
      * left. exists (c :: staged).
        split; [exact H1|]. split; [|split].
        -- etransitivity; [exact H2|]. simpl. now rewrite <- app_assoc.
        -- simpl. now rewrite H3.
        -- now constructor.
      * right. exists (f :: pre), bad, post, (c :: good), failed, e.
        destruct H6 as (H6 & H7 & H8).
        split; [now rewrite H1|]. split; [exact H2|]. split; [|split; [|split]].
        -- etransitivity; [exact H3|]. simpl. now rewrite <- app_assoc.
        -- simpl. now rewrite H4.
        -- now constructor.
        -- auto.
Qed.

(** [git_commit] stages [stage_targets files] with the loop above: the
    single call for the whole tree is the loop over one path. *)
Lemma git_commit_unfold (message : string) (files : option (list string))
      (st : State World) :
  git_commit spawn cpe_str message files st
  = try_except
      (bind (stage_each spawn (stage_targets files))
         (fun _ =>
            bind (subprocess_run spawn (commit_cmd message) true false)
              (fun result =>
                 ret [("success", PyBool (returncode result =? 0)%Z);
                      ("commit_message", PyStr message);
                      ("output", PyStr (stdout result))])))
      (fun e => ret (error_response cpe_str e)) st.
Proof.
  destruct files as [[|f fs]|]; reflexivity.
Qed.

(** Every run of [git_commit]: either all staging calls exit with status 0
    and the commit call follows, or the first staging call that does not
    is the last call and its exception is the response. *)
Lemma git_commit_cases (message : string) (files : option (list string))
      (st : State World) :
  let out := git_commit spawn cpe_str message files st in
  (exists staged c,
      calls (snd out) = calls st ++ staged ++ [c]
      /\ map call_args staged = map add_cmd (stage_targets files)
      /\ Forall call_exit0 staged
      /\ call_args c = commit_cmd message
      /\ call_check c = false
      /\ fst out
         = Ok (match call_outcome c with
               | inr r => [("success", PyBool (returncode r =? 0)%Z);
                           ("commit_message", PyStr message);
                           ("output", PyStr (stdout r))]
               | inl msg => error_response cpe_str (SpawnError msg)
               end))
  \/ (exists pre bad post good failed e,
      stage_targets files = pre ++ bad :: post
      /\ calls (snd out) = calls st ++ good ++ [failed]
      /\ map call_args good = map add_cmd pre
      /\ Forall call_exit0 good
      /\ call_args failed = add_cmd bad
      /\ call_raised failed = Some e
      /\ ~ call_exit0 failed
      /\ fst out = Ok (error_response cpe_str e)).
Proof.
  intros out. subst out. rewrite git_commit_unfold.
  unfold try_except, bind.
  destruct (stage_each_cases (stage_targets files) st) as
    [(staged & H1 & H2 & H3 & H4)
    |(pre & bad & post & good & failed & e & H1 & H2 & H3 & H4 & H5 & H6 & H7 & H8)].
  - left.
    destruct (stage_each spawn (stage_targets files) st) as [res st1].
    simpl in H1, H2. subst res.
    rewrite subprocess_run_logged.
    set (c := mkCall _ _ _ _).
    exists staged, c.
    assert (R : call_raised c
                = match call_outcome c with
                  | inl msg => Some (SpawnError msg)
                  | inr _ => None
                  end).
    { unfold call_raised. destruct (call_outcome c); reflexivity. }
    rewrite R.
    destruct (call_outcome c) as [msg|r]; simpl;
      rewrite H2, <- app_assoc; repeat split; auto.
  - right. exists pre, bad, post, good, failed, e.
    destruct (stage_each spawn (stage_targets files) st) as [res st1].
    simpl in H2, H3. subst res. simpl. repeat split; auto.
Qed.

(** A handler that runs one captured, unchecked command and builds its
    response from the result. *)
Lemma single_call_handler (args : list string)
      (f : CompletedProcess -> Dict) (st : State World) :
  let c := mkCall args true false (fst (spawn args true (world st))) in
  try_except
    (bind (subprocess_run spawn args true false) (fun r => ret (f r)))
    (fun e => ret (error_response cpe_str e)) st
  = (Ok (match call_outcome c with
         | inr r => f r
         | inl msg => error_response cpe_str (SpawnError msg)
         end),
     mkState (snd (spawn args true (world st))) (calls st ++ [c])).
Proof.
  unfold try_except, bind. rewrite subprocess_run_logged. simpl.
  unfold call_raised. simpl.
  destruct (fst (spawn args true (world st))); reflexivity.
Qed.

Lemma unchecked_call_raised (args : list string) (cap : bool)
      (o : string + CompletedProcess) (e : Exception) :
  call_raised (mkCall args cap false o) = Some e ->
  exists msg, o = inl msg /\ e = SpawnError msg.
Proof.
  unfold call_raised. simpl. destruct o as [msg|r]; [|discriminate].
  intros H. injection H as <-. now exists msg.
Qed.

(** Every run of [git_create_branch]. *)
Lemma git_create_branch_cases (branch_name : string) (checkout : option bool)
      (st : State World) :
  let flag := with_default true checkout in
  let out := git_create_branch spawn cpe_str branch_name checkout st in
  let create :=
    mkCall ["git"; "branch"; branch_name] true false
      (fst (spawn ["git"; "branch"; branch_name] true (world st))) in
  match call_outcome create with
  | inl msg =>
      calls (snd out) = calls st ++ [create]
      /\ fst out = Ok (error_response cpe_str (SpawnError msg))
  | inr r =>
      if flag && (returncode r =? 0)%Z
      then exists switch,
          calls (snd out) = calls st ++ [create; switch]
          /\ call_args switch = ["git"; "checkout"; branch_name]
          /\ fst out
             = Ok (match call_raised switch with
                   | Some e => error_response cpe_str e
                   | None => [("success", PyBool true);
                              ("branch", PyStr branch_name);
                              ("checked_out", PyBool true)]
                   end)
      else calls (snd out) = calls st ++ [create]
           /\ fst out = Ok [("success", PyBool (returncode r =? 0)%Z);
                            ("branch", PyStr branch_name);
                            ("checked_out", PyBool flag)]
  end.
Proof.
  intros flag out create. subst out.
  unfold git_create_branch, try_except, bind. fold flag.
  rewrite subprocess_run_logged. fold create.
  assert (R : call_raised create
              = match call_outcome create with
                | inl msg => Some (SpawnError msg)
                | inr _ => None
                end).
  { unfold call_raised. destruct (call_outcome create); reflexivity. }
  rewrite R. clear R.
  destruct (call_outcome create) as [msg|r]; [now split|].
  destruct (flag && (returncode r =? 0)%Z) eqn:G.
  - rewrite subprocess_run_logged. cbv beta iota zeta.
    set (switch := mkCall _ false true _).
    exists switch.
    apply andb_true_iff in G. destruct G as [G1 G2]. rewrite G1, G2.
    destruct (call_raised switch) as [e|] eqn:R.
    + simpl. rewrite <- app_assoc. auto.
    + assert (X : call_exit0 switch) by (apply checked_call_exit0; auto).
      destruct X as (r' & Ho & _). rewrite Ho. simpl.
      rewrite <- app_assoc. auto.
  - now split.
Qed.

Lemma git_clone_run (repository_url : string) (destination : option string)
      (st : State World) :
  let cmd :=
    match destination with
    | Some d =>
        if PyStr.truthy d then ["git"; "clone"; repository_url] ++ [d]
        else ["git"; "clone"; repository_url]
    | None => ["git"; "clone"; repository_url]
    end in
  let c := mkCall cmd true false (fst (spawn cmd true (world st))) in
  git_clone spawn cpe_str repository_url destination st
  = (Ok (match call_outcome c with
         | inr r => [("success", PyBool (returncode r =? 0)%Z);
                     ("output", PyStr (stdout r));
                     ("error", PyStr (stderr r))]
         | inl msg => error_response cpe_str (SpawnError msg)
         end),
     mkState (snd (spawn cmd true (world st))) (calls st ++ [c])).
Proof.
  intros cmd.
  exact (single_call_handler cmd
           (fun r => [("success", PyBool (returncode r =? 0)%Z);
                      ("output", PyStr (stdout r));
                      ("error", PyStr (stderr r))]) st).
Qed.

Lemma git_push_run (remote branch : option string) (st : State World) :
  let cmd :=
    ["git"; "push"; with_default "origin" remote; with_default "main" branch] in
  let c := mkCall cmd true false (fst (spawn cmd true (world st))) in
  git_push spawn cpe_str remote branch st
  = (Ok (match call_outcome c with
         | inr r => [("success", PyBool (returncode r =? 0)%Z);
                     ("output", PyStr (stdout r));
                     ("error", PyStr (stderr r))]
         | inl msg => error_response cpe_str (SpawnError msg)
         end),
     mkState (snd (spawn cmd true (world st))) (calls st ++ [c])).
Proof.
  intros cmd.
  exact (single_call_handler cmd
           (fun r => [("success", PyBool (returncode r =? 0)%Z);
                      ("output", PyStr (stdout r));
                      ("error", PyStr (stderr r))]) st).
Qed.

Lemma git_status_run (st : State World) :
  let c :=
    mkCall status_cmd true false (fst (spawn status_cmd true (world st))) in
  git_status spawn cpe_str st
  = (Ok (match call_outcome c with
         | inr r =>
             [("success", PyBool (returncode r =? 0)%Z);
              ("status", PyStr (stdout r));
              ("clean", PyBool (PyStr.len (PyStr.strip (stdout r)) =? 0)%Z)]
         | inl msg => error_response cpe_str (SpawnError msg)
         end),
     mkState (snd (spawn status_cmd true (world st))) (calls st ++ [c])).
Proof.
  exact (single_call_handler status_cmd
           (fun r =>
              [("success", PyBool (returncode r =? 0)%Z);
               ("status", PyStr (stdout r));
               ("clean", PyBool (PyStr.len (PyStr.strip (stdout r)) =? 0)%Z)])
           st).
Qed.

Lemma git_branch_list_run (st : State World) :
  let c :=
    mkCall branch_list_cmd true false
      (fst (spawn branch_list_cmd true (world st))) in
  git_branch_list spawn cpe_str st
  = (Ok (match call_outcome c with
         | inr r => [("success", PyBool (returncode r =? 0)%Z);
                     ("branches", PyList (branch_names (stdout r)))]
         | inl msg => error_response cpe_str (SpawnError msg)
         end),
     mkState (snd (spawn branch_list_cmd true (world st))) (calls st ++ [c])).
Proof.
  exact (single_call_handler branch_list_cmd
           (fun r => [("success", PyBool (returncode r =? 0)%Z);
                      ("branches", PyList (branch_names (stdout r)))]) st).
Qed.

(** What the boundary guarantees for a handler that issued exactly one
    unchecked call. *)
Lemma single_call_boundary (args : list string) (o : string + CompletedProcess)
      (f : CompletedProcess -> Dict) :
  (forall r, exists b, dict_get "success" (f r) = Some (PyBool b)) ->
  let d := match o with
           | inr r => f r
           | inl msg => error_response cpe_str (SpawnError msg)
           end in
  (exists b, dict_get "success" d = Some (PyBool b))
  /\ (forall c e, In c [mkCall args true false o] ->
                  call_raised c = Some e -> d = error_response cpe_str e).
Proof.
  intros Hf d. split.
  - subst d. destruct o as [msg|r]; [now exists false | apply Hf].
  - intros c e [<-|[]] R.
    apply unchecked_call_raised in R. destruct R as (msg & -> & ->).
    reflexivity.
Qed.

(** The boundary of the six handlers, in terms of the exception a call
    ended with. *)
Lemma invoke_boundary (req : OperationRequest) (st : State World) :
  exists d st' issued,
    invoke spawn cpe_str req st = (Ok d, st')
    /\ calls st' = calls st ++ issued
    /\ (exists b, dict_get "success" d = Some (PyBool b))
    /\ (forall c e, In c issued -> call_raised c = Some e ->
                    d = error_response cpe_str e).
Proof.
  destruct req as [u d|m fs|r b| | |n c]; simpl.
  - rewrite git_clone_run. do 3 eexists.
    split; [reflexivity|]. split; [reflexivity|].
    apply single_call_boundary. intros r. now eexists.
  - pose proof (git_commit_cases m fs st) as H. simpl in H.
    destruct (git_commit spawn cpe_str m fs st) as [res st'].
    simpl in H.
    destruct H as
      [(staged & c & H1 & H2 & H3 & H4 & H5 & H6)
      |(pre & bad & post & good & failed & e & H1 & H2 & H3 & H4 & H5 & H6 & H7 & H8)].
    + subst res. do 3 eexists.
      split; [reflexivity|]. split; [exact H1|]. split.
      * destruct (call_outcome c); now eexists.
      * intros c' e Hin R. apply in_app_or in Hin.
        destruct Hin as [Hin|[Hc|[]]].
        -- rewrite Forall_forall in H3.
           apply H3, call_exit0_not_raised in Hin. congruence.
        -- subst c'. unfold call_raised in R. rewrite H5 in R.
           destruct (call_outcome c) as [msg|r]; [|discriminate].
           now injection R as <-.
    + subst res. do 3 eexists.
      split; [reflexivity|]. split; [exact H2|]. split; [now eexists|].
      intros c' e' Hin R. apply in_app_or in Hin.
      destruct Hin as [Hin|[Hc|[]]].
      * rewrite Forall_forall in H4.
        apply H4, call_exit0_not_raised in Hin. congruence.
      * subst c'. congruence.
  - rewrite git_push_run. do 3 eexists.
    split; [reflexivity|]. split; [reflexivity|].
    apply single_call_boundary. intros r'. now eexists.
  - rewrite git_status_run. do 3 eexists.
    split; [reflexivity|]. split; [reflexivity|].
    apply single_call_boundary. intros r'. now eexists.
  - rewrite git_branch_list_run. do 3 eexists.
    split; [reflexivity|]. split; [reflexivity|].
    apply single_call_boundary. intros r'. now eexists.
  - pose proof (git_create_branch_cases n c st) as H. simpl in H.
    destruct (git_create_branch spawn cpe_str n c st) as [res st'].
    simpl in H.
    destruct (fst (spawn ["git"; "branch"; n] true (world st)))
      as [msg|r] eqn:O.
    + destruct H as [H1 H2]. subst res. do 3 eexists.
      split; [reflexivity|]. split; [exact H1|]. split; [now eexists|].
      intros c' e [Hc|[]] R. subst c'.
      apply unchecked_call_raised in R. destruct R as (msg' & X & ->).
      now injection X as <-.
    + destruct (with_default true c && (returncode r =? 0)%Z).
      * destruct H as (switch & H1 & H2 & H4). subst res.
        do 3 eexists.
        split; [reflexivity|]. split; [exact H1|]. split.
        -- destruct (call_raised switch); now eexists.
        -- intros c' e [Hc|[Hc|[]]] R; subst c'.
           ++ apply unchecked_call_raised in R.
              destruct R as (msg' & X & _). discriminate.
           ++ now rewrite R.
      * destruct H as [H1 H2]. subst res. do 3 eexists.
        split; [reflexivity|]. split; [exact H1|]. split; [now eexists|].
        intros c' e [Hc|[]] R. subst c'.
        apply unchecked_call_raised in R.
        destruct R as (msg' & X & _). discriminate.
Qed.

(** C1. Each of the six operations, on every input and in every state of
    the host, returns a response dictionary and raises nothing; the
    response has a boolean [success] field.  Whenever a call issued by
    the operation could not be launched, the response is
    [{success: False, error: message}] with the message of the launch
    failure; whenever a checked call exited with a non-zero status, the
    response is [{success: False, error: text}] with the text of the
    [CalledProcessError] for that status and command. *)
Theorem invoke_always_responds (req : OperationRequest) (st : State World) :
  exists d st' issued,
    invoke spawn cpe_str req st = (Ok d, st')
    /\ calls st' = calls st ++ issued
    /\ (exists b, dict_get "success" d = Some (PyBool b))
    /\ (forall c, In c issued ->
          match call_outcome c with
          | inl msg =>
              d = [("success", PyBool false); ("error", PyStr msg)]
          | inr r =>
              call_check c = true -> returncode r <> 0%Z ->
              d = [("success", PyBool false);
                   ("error", PyStr (cpe_str (returncode r) (call_args c)))]
          end).
Proof.
  destruct (invoke_boundary req st) as (d & st' & issued & H1 & H2 & H3 & H4).
  exists d, st', issued. repeat (split; [assumption|]).
  intros c Hin. destruct (call_outcome c) as [msg|r] eqn:O.
  - apply (H4 c (SpawnError msg) Hin). unfold call_raised. now rewrite O.
  - intros Hc Hr.
    apply (H4 c (CalledProcessError (returncode r) (call_args c)) Hin).
    unfold call_raised. rewrite O, Hc.
    apply Z.eqb_neq in Hr. now rewrite Hr.
Qed.



(** C4, as amended. The [branches] sequence is obtained from the raw
    output by splitting on line feeds, discarding the lines that are empty
    after trimming, and for each remaining line stripping whitespace at
    both ends and then every leading character that is the marker or a
    space; the lines keep their order, nothing is sorted or merged.  The
    raw output of the example, a marked [main], an indented [feature-x]
    and a blank line, yields [main] and [feature-x]. *)
Theorem git_branch_list_parses (st : State World) :
  (forall raw, branch_names raw = Spec.branch_list_trimmed raw)
  /\ branch_names ("* main" ++ NL ++ "  feature-x" ++ NL ++ NL)
     = ["main"; "feature-x"]
  /\ fst (git_branch_list spawn cpe_str st)
     = Ok (match fst (spawn branch_list_cmd true (world st)) with
           | inr r =>
               [("success", PyBool (returncode r =? 0)%Z);
                ("branches", PyList (Spec.branch_list_trimmed (stdout r)))]
           | inl msg => error_response cpe_str (SpawnError msg)
           end).
Proof.
  split; [exact branch_names_trimmed|]. split; [reflexivity|].
  rewrite git_branch_list_run. simpl.
  destruct (fst (spawn branch_list_cmd true (world st))); [reflexivity|].
  now rewrite branch_names_trimmed.
Qed.

(** C5. When the status process is launched and completes, the response
    carries the raw porcelain text in [status], and [clean] is true exactly
    when every character of that text is whitespace (in particular for the
    empty text), false as soon as one character is not. *)
Theorem git_status_clean (st : State World) (r : CompletedProcess)
        (w' : World) :
  spawn status_cmd true (world st) = (inr r, w') ->
  fst (git_status spawn cpe_str st)
  = Ok [("success", PyBool (returncode r =? 0)%Z);
        ("status", PyStr (stdout r));
        ("clean", PyBool (Spec.all_whitespace (stdout r)))].
Proof.
  intros H. rewrite git_status_run. simpl. rewrite H. simpl.
  now rewrite strip_all_whitespace.
Qed.

(** C6, as amended. [git_clone] issues exactly one command: [git clone]
    with the repository URL, whatever string it is, followed by the
    destination as a second positional argument when the destination is
    present and not the empty string.  The response is [{success: exit
    status == 0, output: stdout, error: stderr}] of that process (and the
    error response when it could not be launched). *)
Theorem git_clone_command (repository_url : string)
        (destination : option string) (st : State World) :
  let cmd :=
    ["git"; "clone"; repository_url]
    ++ match destination with
       | Some d => if String.eqb d "" then [] else [d]
       | None => []
       end in
  let out := git_clone spawn cpe_str repository_url destination st in
  exists c,
    calls (snd out) = calls st ++ [c]
    /\ call_args c = cmd
    /\ call_outcome c = fst (spawn cmd true (world st))
    /\ fst out
       = Ok (match call_outcome c with
             | inr r => [("success", PyBool (returncode r =? 0)%Z);
                         ("output", PyStr (stdout r));
                         ("error", PyStr (stderr r))]
             | inl msg => error_response cpe_str (SpawnError msg)
             end).
Proof.
  intros cmd out. subst out. rewrite git_clone_run. cbv zeta.
  assert (E : match destination with
              | Some d =>
                  if PyStr.truthy d
                  then ["git"; "clone"; repository_url] ++ [d]
                  else ["git"; "clone"; repository_url]
              | None => ["git"; "clone"; repository_url]
              end = cmd).
  { subst cmd. destruct destination as [[|a d]|]; reflexivity. }
  rewrite E. eexists. repeat split; reflexivity.
Qed.

(** C7. When the commit phase of [git_commit] ran, that is when the last
    call issued is the commit call and its process completed, the response
    is [{success: commit exit status == 0, commit_message: message,
    output: stdout of the commit}]: these three fields and no other, so
    neither the commit's stderr nor an [error] field is part of it. *)
Theorem git_commit_response (message : string) (files : option (list string))
        (st : State World) (earlier : list Call) (c : Call)
        (r : CompletedProcess) :
  calls (snd (git_commit spawn cpe_str message files st))
  = calls st ++ earlier ++ [c] ->
  call_args c = commit_cmd message ->
  call_outcome c = inr r ->
  exists d,
    fst (git_commit spawn cpe_str message files st) = Ok d
    /\ d = [("success", PyBool (returncode r =? 0)%Z);
            ("commit_message", PyStr message);
            ("output", PyStr (stdout r))]
    /\ dict_keys d = ["success"; "commit_message"; "output"]
    /\ dict_get "error" d = None.
Proof.
  intros Hc Ha Ho.
  destruct (git_commit_cases message files st) as
    [(staged & c' & H1 & H2 & H3 & H4 & H5 & H6)
    |(pre & bad & post & good & failed & e & H1 & H2 & H3 & H4 & H5 & H6 & H7 & H8)].
  - rewrite Hc in H1. apply app_inv_head in H1.
    apply app_inj_tail in H1. destruct H1 as [_ <-].
    rewrite Ho in H6. eexists. split; [exact H6|]. repeat split.
  - rewrite Hc in H2. apply app_inv_head in H2.
    apply app_inj_tail in H2. destruct H2 as [_ <-].
    rewrite Ha in H5. symmetry in H5.
    now apply add_cmd_not_commit_cmd in H5.
Qed.

(** C8. [git_push] issues exactly one command, [git push remote branch],
    with ["origin"] and ["main"] for the arguments that were not supplied;
    there is no second attempt.  The response is [{success: exit status ==
    0, output: stdout, error: stderr}] of that process (and the error
    response when it could not be launched). *)
Theorem git_push_once (st : State World) :
  (forall remote branch,
      let cmd := ["git"; "push"; with_default "origin" remote;
                  with_default "main" branch] in
      let out := git_push spawn cpe_str remote branch st in
      exists c,
        calls (snd out) = calls st ++ [c]
        /\ call_args c = cmd
        /\ call_outcome c = fst (spawn cmd true (world st))
        /\ fst out
           = Ok (match call_outcome c with
                 | inr r => [("success", PyBool (returncode r =? 0)%Z);
                             ("output", PyStr (stdout r));
                             ("error", PyStr (stderr r))]
                 | inl msg => error_response cpe_str (SpawnError msg)
                 end))
  /\ (exists c,
         calls (snd (git_push spawn cpe_str None None st)) = calls st ++ [c]
         /\ call_args c = ["git"; "push"; "origin"; "main"])
  /\ (forall remote branch,
         exists c,
           calls (snd (git_push spawn cpe_str (Some remote) (Some branch) st))
           = calls st ++ [c]
           /\ call_args c = ["git"; "push"; remote; branch]).
Proof.
  split; [intros remote branch; cbv zeta | split; [|intros remote branch]];
    rewrite git_push_run; cbv zeta; eexists; repeat split; reflexivity.
Qed.

(** C9. If the host reports the same outcome for the status command after
    a first [git_status] as before it, two [git_status] invocations in a
    row return the same response; likewise for [git_branch_list] and the
    branch listing command. *)
Theorem status_and_branch_list_repeatable (st : State World) :
  fst (spawn status_cmd true (snd (spawn status_cmd true (world st))))
  = fst (spawn status_cmd true (world st)) ->
  fst (spawn branch_list_cmd true
         (snd (spawn branch_list_cmd true (world st))))
  = fst (spawn branch_list_cmd true (world st)) ->
  (exists d, fst (twice (git_status spawn cpe_str) st) = Ok (d, d))
  /\ (exists d, fst (twice (git_branch_list spawn cpe_str) st) = Ok (d, d)).
Proof.
  intros Hs Hb. unfold twice, bind. split.
  - rewrite git_status_run. cbv zeta beta iota.
    rewrite git_status_run. simpl. rewrite Hs. now eexists.
  - rewrite git_branch_list_run. cbv zeta beta iota.
    rewrite git_branch_list_run. simpl. rewrite Hb. now eexists.
Qed.

(** C10. When the branch listing process is launched and exits with a
    non-zero status, the response is [{success: False, branches: the
    sequence parsed from its stdout}], parsed by the same rules as on
    success (lines split on line feeds, blank lines dropped, whitespace
    trimmed, leading markers and spaces removed); it has no [error]
    field. *)
Theorem git_branch_list_nonzero (st : State World) (r : CompletedProcess)
        (w' : World) :
  spawn branch_list_cmd true (world st) = (inr r, w') ->
  returncode r <> 0%Z ->
  exists d,
    fst (git_branch_list spawn cpe_str st) = Ok d
    /\ d = [("success", PyBool false);
            ("branches", PyList (Spec.branch_list_trimmed (stdout r)))]
    /\ dict_get "error" d = None.
Proof.
  intros H Hr. rewrite git_branch_list_run. simpl. rewrite H. simpl.
  apply Z.eqb_neq in Hr. rewrite Hr, branch_names_trimmed.
  eexists. repeat split.
Qed.

End AdapterFacts.

(** ** Concrete runs on the scripted host *)


(** C4 fails as first stated: on a line with a second marker after the
    marker and the space, and on a line with trailing spaces, the code
    strips more than leading whitespace, one marker and one space. *)
Lemma branch_names_strips_more :
  let raw := ("* *x" ++ NL ++ "main  " ++ NL)%string in
  branch_names raw = ["x"; "main"]
  /\ Spec.branch_list raw = ["*x"; "main  "]
  /\ branch_names raw <> Spec.branch_list raw.
Proof.
  vm_compute. split; [reflexivity|]. split; [reflexivity | discriminate].
Qed.

(** C6 fails as first stated: a destination that is present but empty is
    not appended. *)
Lemma git_clone_empty_destination :
  let out :=
    git_clone scripted_spawn scripted_cpe_str "https://example.org/r.git"
      (Some "") (script [])
  in
  map call_args (calls (snd out))
  = [["git"; "clone"; "https://example.org/r.git"]]
  /\ map call_args (calls (snd out))
     <> [["git"; "clone"; "https://example.org/r.git"; ""]].
Proof.
  vm_compute. split; [reflexivity | discriminate].
Qed.

(** C5 at two outputs: a blank one and one that names a modified file. *)
Lemma git_status_clean_witness :
  fst (git_status scripted_spawn scripted_cpe_str
         (script [exited 0 (" " ++ NL) ""]))
  = Ok [("success", PyBool true);
        ("status", PyStr (" " ++ NL));
        ("clean", PyBool true)]
  /\ fst (git_status scripted_spawn scripted_cpe_str
            (script [exited 0 (" M a.txt" ++ NL) ""]))
     = Ok [("success", PyBool true);
           ("status", PyStr (" M a.txt" ++ NL));
           ("clean", PyBool false)].
Proof.
  split.
  - exact (git_status_clean Script scripted_spawn scripted_cpe_str
             (script [exited 0 (" " ++ NL) ""])
             (mkCompleted 0 (" " ++ NL) "") [] eq_refl).
  - exact (git_status_clean Script scripted_spawn scripted_cpe_str
             (script [exited 0 (" M a.txt" ++ NL) ""])
             (mkCompleted 0 (" M a.txt" ++ NL) "") [] eq_refl).
Defined.

(** C7 at a commit that exits with status 1 after the whole tree was
    staged. *)
Lemma git_commit_response_witness :
  exists d,
    fst (git_commit scripted_spawn scripted_cpe_str "msg" None
           (script [exited 0 "" ""; exited 1 "nothing to commit" "err"]))
    = Ok d
    /\ d = [("success", PyBool false);
            ("commit_message", PyStr "msg");
            ("output", PyStr "nothing to commit")]
    /\ dict_keys d = ["success"; "commit_message"; "output"]
    /\ dict_get "error" d = None.
Proof.
  exact (git_commit_response Script scripted_spawn scripted_cpe_str
           "msg" None
           (script [exited 0 "" ""; exited 1 "nothing to commit" "err"])
           [mkCall (add_cmd ".") false true (exited 0 "" "")]
           (mkCall (commit_cmd "msg") true false
              (exited 1 "nothing to commit" "err"))
           (mkCompleted 1 "nothing to commit" "err")
           eq_refl eq_refl eq_refl).
Defined.

(** C9 on a host that answers the same twice. *)
Lemma status_and_branch_list_repeatable_witness :
  let st := script [exited 0 ("* main" ++ NL) ""; exited 0 ("* main" ++ NL) ""]
  in
  (exists d, fst (twice (git_status scripted_spawn scripted_cpe_str) st)
             = Ok (d, d))
  /\ (exists d, fst (twice (git_branch_list scripted_spawn scripted_cpe_str) st)
                = Ok (d, d)).
Proof.
  exact (status_and_branch_list_repeatable Script scripted_spawn
           scripted_cpe_str
           (script [exited 0 ("* main" ++ NL) ""; exited 0 ("* main" ++ NL) ""])
           eq_refl eq_refl).
Defined.

(** C10 at a listing process that prints two branches and a blank line
    and then exits with status 1. *)
Lemma git_branch_list_nonzero_witness :
  exists d,
    fst (git_branch_list scripted_spawn scripted_cpe_str
           (script [exited 1 ("* main" ++ NL ++ "  dev  " ++ NL ++ NL)
                      "error: broken ref"]))
    = Ok d
    /\ d = [("success", PyBool false); ("branches", PyList ["main"; "dev"])]
    /\ dict_get "error" d = None.
Proof.
  refine (git_branch_list_nonzero Script scripted_spawn scripted_cpe_str
            (script [exited 1 ("* main" ++ NL ++ "  dev  " ++ NL ++ NL)
                       "error: broken ref"])
            (mkCompleted 1 ("* main" ++ NL ++ "  dev  " ++ NL ++ NL)
               "error: broken ref") []
            eq_refl _).
  discriminate.
Defined.

(** C1 at two failures: the tool cannot be launched for a clone, and the
    checked switch of a branch creation exits with status 1. *)
Lemma invoke_always_responds_witness :
  fst (invoke scripted_spawn scripted_cpe_str
         (Clone "https://example.org/r.git" None)
         (script [inl "[Errno 2] No such file or directory: 'git'"]))
  = Ok [("success", PyBool false);
        ("error", PyStr "[Errno 2] No such file or directory: 'git'")]
  /\ fst (invoke scripted_spawn scripted_cpe_str
            (CreateBranch "feature" None)
            (script [exited 0 "" ""; exited 1 "" "error: cannot switch"]))
     = Ok [("success", PyBool false);
           ("error",
            PyStr (scripted_cpe_str 1 ["git"; "checkout"; "feature"]))].
Proof.
  split.
  - destruct (invoke_always_responds Script scripted_spawn scripted_cpe_str
                (Clone "https://example.org/r.git" None)
                (script [inl "[Errno 2] No such file or directory: 'git'"]))
      as (d & st' & issued & H1 & H2 & _ & H4).
    pose proof (f_equal snd H1) as Hs. simpl in Hs. rewrite <- Hs in H2.
    simpl in H2. rewrite H1. simpl. f_equal.
    apply (H4 (mkCall ["git"; "clone"; "https://example.org/r.git"] true false
                 (inl "[Errno 2] No such file or directory: 'git'"))).
    rewrite <- H2. now left.
  - destruct (invoke_always_responds Script scripted_spawn scripted_cpe_str
                (CreateBranch "feature" None)
                (script [exited 0 "" ""; exited 1 "" "error: cannot switch"]))
      as (d & st' & issued & H1 & H2 & _ & H4).
    pose proof (f_equal snd H1) as Hs. simpl in Hs. rewrite <- Hs in H2.
    simpl in H2. rewrite H1. simpl. f_equal.
    refine (H4 (mkCall ["git"; "checkout"; "feature"] false true
                  (exited 1 "" "error: cannot switch")) _ eq_refl _).
    + rewrite <- H2. right. now left.
    + discriminate.
Defined.

(** ** More about the parsing of branch listings *)

Lemma split_append_line (a b : string) :
  PyStr.split PyStr.LF (a ++ String PyStr.LF b)
  = PyStr.split PyStr.LF a ++ PyStr.split PyStr.LF b.
Proof.
  induction a as [|c a IH]; simpl; [reflexivity|].
  destruct (Ascii.eqb c PyStr.LF); simpl.
  - now rewrite IH.
  - rewrite IH.
    pose proof (split_not_nil PyStr.LF a) as N.
    destruct (PyStr.split PyStr.LF a); [contradiction | reflexivity].
Qed.

Lemma blank_all_whitespace (l : Spec.text) :
  Spec.blank l = forallb PyStr.isspace l.
Proof.
  unfold Spec.blank.
  destruct (forallb PyStr.isspace l) eqn:F.
  - apply trim_nil in F. now rewrite F.
  - destruct (Spec.trim l) eqn:T; [|reflexivity].
    apply trim_nil in T. congruence.
Qed.

Lemma blank_lines_all_whitespace (raw : string) :
  forallb (fun b => negb (PyStr.truthy (PyStr.strip b)))
    (PyStr.split PyStr.LF raw)
  = Spec.all_whitespace raw.
Proof.
  unfold Spec.all_whitespace.
  induction raw as [|c raw IH]; [reflexivity|].
  simpl. destruct (Ascii.eqb c PyStr.LF) eqn:E.
  - apply Ascii.eqb_eq in E. subst c. simpl. exact IH.
  - rewrite <- IH.
    pose proof (split_not_nil PyStr.LF raw) as N.
    destruct (PyStr.split PyStr.LF raw) as [|w ws]; [contradiction|].
    simpl. rewrite !truthy_strip, !negb_involutive, !blank_all_whitespace.
    simpl. now rewrite andb_assoc.
Qed.

Lemma filter_nil_forallb {A} (g : A -> bool) (l : list A) :
  filter g l = [] <-> forallb (fun a => negb (g a)) l = true.
Proof.
  induction l as [|a l IH]; simpl; [tauto|].
  destruct (g a); simpl; [split; discriminate | exact IH].
Qed.

Lemma lstrip_by_idempotent (p : ascii -> bool) (s : string) :
  PyStr.lstrip_by p (PyStr.lstrip_by p s) = PyStr.lstrip_by p s.
Proof.
  induction s as [|c s IH]; simpl; [reflexivity|].
  destruct (p c) eqn:E; [exact IH | simpl; now rewrite E].
Qed.

Lemma rstrip_by_idempotent (p : ascii -> bool) (s : string) :
  PyStr.rstrip_by p (PyStr.rstrip_by p s) = PyStr.rstrip_by p s.
Proof.
  induction s as [|c s IH]; simpl; [reflexivity|].
  destruct (PyStr.rstrip_by p s) as [|d r] eqn:E.
  - destruct (p c) eqn:Pc; simpl; [reflexivity | now rewrite Pc].
  - change (PyStr.rstrip_by p (String c (String d r))) with
      (match PyStr.rstrip_by p (String d r) with
       | EmptyString => if p c then EmptyString else String c EmptyString
       | r' => String c r'
       end).
    now rewrite IH.
Qed.

Lemma rstrip_by_fixed_tail (p : ascii -> bool) (c : ascii) (s : string) :
  PyStr.rstrip_by p (String c s) = String c s -> PyStr.rstrip_by p s = s.
Proof.
  simpl. destruct (PyStr.rstrip_by p s) as [|d r].
  - destruct (p c); [discriminate|]. intros H. now injection H.
  - intros H. now injection H.
Qed.

Lemma rstrip_by_fixed_cons (p : ascii -> bool) (c : ascii) (s : string) :
  s <> EmptyString -> PyStr.rstrip_by p s = s ->
  PyStr.rstrip_by p (String c s) = String c s.
Proof.
  intros N H. simpl. rewrite H. destruct s; [contradiction | reflexivity].
Qed.

Lemma rstrip_by_lstrip_by (p q : ascii -> bool) (s : string) :
  PyStr.rstrip_by p s = s ->
  PyStr.rstrip_by p (PyStr.lstrip_by q s) = PyStr.lstrip_by q s.
Proof.
  induction s as [|c s IH]; intros H; [reflexivity|].
  change (PyStr.lstrip_by q (String c s)) with
    (if q c then PyStr.lstrip_by q s else String c s).
  destruct (q c); [|exact H].
  apply IH. eapply rstrip_by_fixed_tail, H.
Qed.

Lemma lstrip_by_subset (p : ascii -> bool) (s : string) (x : ascii) :
  In x (list_ascii_of_string (PyStr.lstrip_by p s)) ->
  In x (list_ascii_of_string s).
Proof.
  induction s as [|c s IH]; simpl; [tauto|].
  destruct (p c); simpl; auto.
Qed.

Lemma rstrip_by_subset (p : ascii -> bool) (s : string) (x : ascii) :
  In x (list_ascii_of_string (PyStr.rstrip_by p s)) ->
  In x (list_ascii_of_string s).
Proof.
  induction s as [|c s IH]; simpl; [tauto|].
  destruct (PyStr.rstrip_by p s) as [|d r].
  - destruct (p c); simpl; tauto.
  - simpl. simpl in IH. tauto.
Qed.

Lemma split_fields_without_separator (sep : ascii) (s w : string) :
  In w (PyStr.split sep s) -> ~ In sep (list_ascii_of_string w).
Proof.
  revert w. induction s as [|c s IH]; intros w; simpl.
  - intros [<-|[]]. simpl. tauto.
  - destruct (Ascii.eqb c sep) eqn:E.
    + intros [<-|H]; [simpl; tauto | now apply IH].
    + apply Ascii.eqb_neq in E.
      destruct (PyStr.split sep s) as [|v vs]; simpl.
      * intros [<-|[]]. simpl. intros [X|[]]. congruence.
      * intros [<-|H].
        -- simpl. intros [X|X]; [congruence|].
           revert X. apply IH. now left.
        -- apply IH. now right.
Qed.

Lemma split_single_line (s : string) :
  ~ In PyStr.LF (list_ascii_of_string s) -> PyStr.split PyStr.LF s = [s].
Proof.
  induction s as [|c s IH]; simpl; [reflexivity|].
  intros H. destruct (Ascii.eqb c PyStr.LF) eqn:E.
  - apply Ascii.eqb_eq in E. exfalso. apply H. now left.
  - rewrite IH; [reflexivity|]. intros X. apply H. now right.
Qed.

Lemma branch_names_append_line (a b : string) :
  branch_names (a ++ String PyStr.LF b) = branch_names a ++ branch_names b.
Proof.
  unfold branch_names.
  now rewrite split_append_line, filter_app, map_app.
Qed.

Lemma existsb_eqb_In (x : ascii) (l : list ascii) :
  existsb (Ascii.eqb x) l = false -> ~ In x l.
Proof.
  induction l as [|c l IH]; simpl; [tauto|].
  intros H. apply orb_false_iff in H. destruct H as [H1 H2].
  apply Ascii.eqb_neq in H1. intros [X|X]; [congruence | now apply IH].
Qed.

Lemma branch_names_listing_line (entry : bool * string) :
  plain_name (snd entry) = true ->
  branch_names (listing_line entry) = [snd entry].
Proof.
  destruct entry as [current name]. unfold plain_name, listing_line. simpl.
  intros H.
  repeat (apply andb_true_iff in H; destruct H as [H ?]).
  apply negb_true_iff in H. apply String.eqb_neq in H.
  repeat match goal with
         | X : String.eqb _ _ = true |- _ => apply String.eqb_eq in X
         | X : negb _ = true |- _ => apply negb_true_iff in X
         end.
  match goal with X : existsb _ _ = false |- _ =>
    apply existsb_eqb_In in X; rename X into NoLF end.
  match goal with X : PyStr.lstrip_by _ name = name |- _ =>
    rename X into L end.
  match goal with X : PyStr.rstrip_by _ name = name |- _ =>
    rename X into R end.
  match goal with X : PyStr.lstrip _ name = name |- _ =>
    rename X into Mk end.
  unfold branch_names.
  rewrite split_single_line.
  2:{ destruct current; simpl; intros [X|[X|X]];
        try discriminate; now apply NoLF. }
  assert (S1 : PyStr.strip
                 ((if current then "* " else "  ") ++ name)%string
               = ((if current then "* " else "") ++ name)%string).
  { unfold PyStr.strip. destruct current; simpl.
    - change (PyStr.rstrip_by PyStr.isspace (String "*" (String " " name))
              = String "*" (String " " name)).
      apply rstrip_by_fixed_cons; [discriminate|].
      apply rstrip_by_fixed_cons; assumption.
    - change (PyStr.isspace " ") with true. cbv iota.
      now rewrite L, R. }
  assert (T : PyStr.truthy ((if current then "* " else "") ++ name)%string
              = true).
  { destruct current; [reflexivity|]. simpl. now destruct name. }
  cbn [filter]. rewrite S1, T. cbn [map]. rewrite S1. f_equal.
  destruct current; [|exact Mk].
  unfold PyStr.lstrip in *. simpl. exact Mk.
Qed.

(** ** Invariants of the handlers *)

Section AdapterInvariants.

Variable World : Type.
Variable spawn :
  list string -> bool -> World -> (string + CompletedProcess) * World.
Variable cpe_str : Z -> list string -> string.

(** [git_create_branch] in full: the calls, the final world and the
    response, by cases on what the host answers. *)
Lemma git_create_branch_run (branch_name : string) (checkout : option bool)
      (st : State World) :
  let flag := with_default true checkout in
  let o1 := spawn ["git"; "branch"; branch_name] true (world st) in
  let create := mkCall ["git"; "branch"; branch_name] true false (fst o1) in
  let o2 := spawn ["git"; "checkout"; branch_name] false (snd o1) in
  let switch :=
    mkCall ["git"; "checkout"; branch_name] false true (fst o2) in
  git_create_branch spawn cpe_str branch_name checkout st
  = match fst o1 with
    | inl msg =>
        (Ok (error_response cpe_str (SpawnError msg)),
         mkState (snd o1) (calls st ++ [create]))
    | inr r =>
        if flag && (returncode r =? 0)%Z
        then (Ok (match call_raised switch with
                  | Some e => error_response cpe_str e
                  | None => [("success", PyBool (returncode r =? 0)%Z);
                             ("branch", PyStr branch_name);
                             ("checked_out", PyBool flag)]
                  end),
              mkState (snd o2) (calls st ++ [create; switch]))
        else (Ok [("success", PyBool (returncode r =? 0)%Z);
                  ("branch", PyStr branch_name);
                  ("checked_out", PyBool flag)],
              mkState (snd o1) (calls st ++ [create]))
    end.
Proof.
  intros flag o1 create o2 switch.
  unfold git_create_branch, try_except, bind. fold flag.
  rewrite subprocess_run_logged. fold o1. fold create.
  unfold call_raised at 1. cbn [call_outcome create call_check andb].
  destruct (fst o1) as [msg|r]; [reflexivity|].
  destruct (flag && (returncode r =? 0)%Z); [|reflexivity].
  rewrite subprocess_run_logged. cbn [world]. fold o2. fold switch.
  destruct (call_raised switch) as [e|] eqn:R.
  - cbn. now rewrite <- app_assoc.
  - assert (X : call_exit0 switch) by (apply checked_call_exit0; auto).
    destruct X as (r' & Ho & _). rewrite Ho. cbn.
    now rewrite <- app_assoc.
Qed.

(** The calls of the staging loop: unchecked output, checked exit status,
    each one a [git add] of a listed path; never more calls than paths. *)
Lemma stage_each_shape (fs : list string) (st : State World) :
  exists new,
    calls (snd (stage_each spawn fs st)) = calls st ++ new
    /\ List.length new <= List.length fs
    /\ (fs <> [] -> new <> [])
    /\ Forall (fun c => call_capture c = false /\ call_check c = true
                        /\ exists p, In p fs /\ call_args c = add_cmd p) new.
Proof.
  revert st. induction fs as [|f fs IH]; intros st.
  - exists []. simpl. rewrite app_nil_r. repeat split; auto. 
  - simpl. unfold bind. rewrite subprocess_run_logged.
    set (c := mkCall _ _ _ _).
    assert (Sc : call_capture c = false /\ call_check c = true
                 /\ exists p, In p (f :: fs) /\ call_args c = add_cmd p).
    { repeat split. exists f. split; [now left | reflexivity]. }
    destruct (call_raised c) as [e|] eqn:R.
    + exists [c]. simpl. repeat split; auto; try lia; discriminate.
    + assert (X : call_exit0 c) by (apply checked_call_exit0; auto).
      destruct X as (r & Ho & _). rewrite Ho. cbv beta iota.
      set (st1 := mkState _ _).
      destruct (IH st1) as (new & H1 & H2 & _ & H4).
      exists (c :: new). split; [|split; [|split]].
      * etransitivity; [exact H1|]. simpl. now rewrite <- app_assoc.
      * simpl. lia.
      * discriminate.
      * constructor; [exact Sc|].
        eapply Forall_impl; [|exact H4].
        intros a (A1 & A2 & p & A3 & A4). repeat split; auto.
        exists p. split; [now right | exact A4].
Qed.

(** The calls of [git_commit]: staging calls as above, then at most the
    commit call, whose output is captured and whose exit status is not
    checked. *)
Lemma git_commit_shape (message : string) (files : option (list string))
      (st : State World) :
  exists issued,
    calls (snd (git_commit spawn cpe_str message files st))
    = calls st ++ issued
    /\ issued <> []
    /\ List.length issued <= S (List.length (stage_targets files))
    /\ Forall (fun c =>
                 (call_capture c = false /\ call_check c = true
                  /\ exists p, In p (stage_targets files)
                               /\ call_args c = add_cmd p)
                 \/ (call_capture c = true /\ call_check c = false
                     /\ call_args c = commit_cmd message)) issued.
Proof.
  rewrite git_commit_unfold. unfold try_except, bind.
  destruct (stage_each_shape (stage_targets files) st)
    as (new & H1 & H2 & H3 & H4).
  assert (N : stage_targets files <> [])
    by (destruct files as [[|f fs]|]; discriminate).
  specialize (H3 N).
  assert (H4' : Forall (fun c =>
                 (call_capture c = false /\ call_check c = true
                  /\ exists p, In p (stage_targets files)
                               /\ call_args c = add_cmd p)
                 \/ (call_capture c = true /\ call_check c = false
                     /\ call_args c = commit_cmd message)) new)
    by (eapply Forall_impl; [|exact H4]; intros a Ha; now left).
  destruct (stage_each spawn (stage_targets files) st) as [[[]|e] st1];
    simpl in H1.
  - rewrite subprocess_run_logged.
    set (c := mkCall _ _ _ _).
    exists (new ++ [c]).
    assert (E : forall (x : Result Dict * State World),
               snd x = mkState (snd (spawn (commit_cmd message) true (world st1)))
                         (calls st1 ++ [c]) ->
               calls (snd x) = calls st ++ new ++ [c]).
    { intros x ->. simpl. now rewrite H1, <- app_assoc. }
    split; [|split; [|split]].
    + apply E.
      destruct (call_raised c); [reflexivity|].
      destruct (call_outcome c); reflexivity.
    + destruct new; discriminate.
    + rewrite length_app. simpl. lia.
    + apply Forall_app. split; [exact H4'|].
      constructor; [|constructor]. right. repeat split.
  - exists new. simpl. repeat split; auto.
Qed.

(** The shape every run has: some calls that exited with status 0, then a
    last call.  If the last call raised, the response is the error
    response of its exception; otherwise its process completed and
    [success] tells whether it exited with status 0. *)
Lemma invoke_run_shape (req : OperationRequest) (st : State World) :
  exists d before last,
    fst (invoke spawn cpe_str req st) = Ok d
    /\ calls (snd (invoke spawn cpe_str req st)) = calls st ++ before ++ [last]
    /\ Forall call_exit0 before
    /\ match call_raised last with
       | Some e => d = error_response cpe_str e
       | None =>
           exists r,
             call_outcome last = inr r
             /\ dict_get "success" d = Some (PyBool (returncode r =? 0)%Z)
             /\ dict_get "error" d
                = match req with
                  | Clone _ _ | Push _ _ => Some (PyStr (stderr r))
                  | _ => None
                  end
       end.
Proof.
  assert (Single : forall args (f : CompletedProcess -> Dict) o
                          (err : CompletedProcess -> option PyValue),
    (forall r, dict_get "success" (f r)
               = Some (PyBool (returncode r =? 0)%Z)) ->
    (forall r, dict_get "error" (f r) = err r) ->
    match call_raised (mkCall args true false o) with
    | Some e =>
        match o with
        | inr r => f r
        | inl msg => error_response cpe_str (SpawnError msg)
        end = error_response cpe_str e
    | None =>
        exists r,
          o = inr r
          /\ dict_get "success"
               match o with
               | inr r => f r
               | inl msg => error_response cpe_str (SpawnError msg)
               end = Some (PyBool (returncode r =? 0)%Z)
          /\ dict_get "error"
               match o with
               | inr r => f r
               | inl msg => error_response cpe_str (SpawnError msg)
               end = err r
    end).
  { intros args f o err Hs He. unfold call_raised. simpl.
    destruct o as [msg|r]; [reflexivity|]. exists r. auto. }
  destruct req as [u d|m fs|r b| | |n c]; simpl.
  - rewrite git_clone_run. cbv zeta. eexists. exists []. eexists.
    split; [reflexivity|]. split; [reflexivity|]. split; [constructor|].
    apply (Single _ _ _ (fun r => Some (PyStr (stderr r)))); reflexivity.
  - destruct (git_commit_cases World spawn cpe_str m fs st) as
      [(staged & c & H1 & H2 & H3 & H4 & H5 & H6)
      |(pre & bad & post & good & failed & e & H1 & H2 & H3 & H4 & H5 & H6 & H7 & H8)].
    + eexists. exists staged, c.
      split; [exact H6|]. split; [exact H1|]. split; [exact H3|].
      unfold call_raised. rewrite H5. simpl.
      destruct (call_outcome c) as [msg|r]; [reflexivity|].
      exists r. auto.
    + eexists. exists good, failed.
      split; [exact H8|]. split; [exact H2|]. split; [exact H4|].
      now rewrite H6.
  - rewrite git_push_run. cbv zeta. eexists. exists []. eexists.
    split; [reflexivity|]. split; [reflexivity|]. split; [constructor|].
    apply (Single _ _ _ (fun r => Some (PyStr (stderr r)))); reflexivity.
  - rewrite git_status_run. cbv zeta. eexists. exists []. eexists.
    split; [reflexivity|]. split; [reflexivity|]. split; [constructor|].
    apply (Single _ _ _ (fun _ => None)); reflexivity.
  - rewrite git_branch_list_run. cbv zeta. eexists. exists []. eexists.
    split; [reflexivity|]. split; [reflexivity|]. split; [constructor|].
    apply (Single _ _ _ (fun _ => None)); reflexivity.
  - rewrite git_create_branch_run. cbv zeta.
    destruct (fst (spawn ["git"; "branch"; n] true (world st)))
      as [msg|r] eqn:O1.
    + eexists. exists []. eexists.
      split; [reflexivity|]. split; [reflexivity|]. split; [constructor|].
      reflexivity.
    + destruct (with_default true c && (returncode r =? 0)%Z) eqn:G.
      * apply andb_true_iff in G. destruct G as [G1 G2].
        eexists.
        exists [mkCall ["git"; "branch"; n] true false (inr r)].
        exists (mkCall ["git"; "checkout"; n] false true
                  (fst (spawn ["git"; "checkout"; n] false
                          (snd (spawn ["git"; "branch"; n] true (world st)))))).
        split; [reflexivity|]. split; [reflexivity|]. split.
        -- constructor; [|constructor]. exists r. split; [reflexivity|].
           now apply Z.eqb_eq.
        -- set (switch := mkCall _ false true _).
           destruct (call_raised switch) eqn:R; [reflexivity|].
           assert (X : call_exit0 switch) by (apply checked_call_exit0; auto).
           destruct X as (r' & Ho & Hr). exists r'.
           split; [exact Ho|]. rewrite Hr, G2. split; reflexivity.
      * eexists. exists []. eexists.
        split; [reflexivity|]. split; [reflexivity|]. split; [constructor|].
        unfold call_raised. simpl. exists r. repeat split.
Qed.

Lemma call_exit0_completed (c : Call) (r : CompletedProcess) :
  call_outcome c = inr r -> (call_exit0 c <-> (returncode r =? 0)%Z = true).
Proof.
  intros Ho. unfold call_exit0. rewrite Ho, Z.eqb_eq. split.
  - intros (r' & E & Hr). now injection E as ->.
  - intros Hr. now exists r.
Qed.

(** X1. For every request, the response says [success: True] exactly when
    every command the operation issued exited with status 0. *)
Theorem success_iff_all_exit0 (req : OperationRequest) (st : State World) :
  exists d issued,
    fst (invoke spawn cpe_str req st) = Ok d
    /\ calls (snd (invoke spawn cpe_str req st)) = calls st ++ issued
    /\ (dict_get "success" d = Some (PyBool true)
        <-> Forall call_exit0 issued).
Proof.
  destruct (invoke_run_shape req st) as (d & before & last & H1 & H2 & H3 & H4).
  exists d, (before ++ [last]). split; [exact H1|]. split; [exact H2|].
  rewrite Forall_app.
  destruct (call_raised last) as [e|] eqn:R.
  - subst d. split; [discriminate|].
    intros [_ X]. inversion X as [|? ? X1 _]; subst.
    apply call_exit0_not_raised in X1. congruence.
  - destruct H4 as (r & Ho & Hs & _). rewrite Hs. split.
    + intros E. injection E as E. split; [exact H3|].
      constructor; [|constructor]. now apply (call_exit0_completed _ r).
    + intros [_ X]. inversion X as [|? ? X1 _]; subst.
      apply (call_exit0_completed _ r Ho) in X1. now rewrite X1.
Qed.

(** X2. For every request, every call but the last one issued exited with
    status 0: an operation goes on to a further command only after the
    previous one succeeded, so a command that failed is always the last
    one issued. *)
Theorem failed_call_is_last (req : OperationRequest) (st : State World) :
  exists before last,
    calls (snd (invoke spawn cpe_str req st)) = calls st ++ before ++ [last]
    /\ Forall call_exit0 before
    /\ Forall (fun c => call_raised c = None) before.
Proof.
  destruct (invoke_run_shape req st) as (d & before & last & _ & H2 & H3 & _).
  exists before, last. split; [exact H2|]. split; [exact H3|].
  eapply Forall_impl; [|exact H3]. exact call_exit0_not_raised.
Qed.

(** X3. For every request, the operation issues at least one command and
    at most [max_calls]; every command issued is a [git] subcommand; the
    exit status is checked exactly for the calls whose output is not
    captured, and those are the [git add] and [git checkout] calls. *)
Theorem invoke_issues_git_only (req : OperationRequest) (st : State World) :
  exists issued,
    calls (snd (invoke spawn cpe_str req st)) = calls st ++ issued
    /\ issued <> []
    /\ List.length issued <= max_calls req
    /\ Forall (fun c =>
                 (exists sub rest, call_args c = "git" :: sub :: rest)
                 /\ call_capture c = negb (call_check c)
                 /\ (call_check c = true
                     <-> exists x, call_args c = add_cmd x
                                   \/ call_args c = ["git"; "checkout"; x]))
         issued.
Proof.
  assert (Captured : forall sub rest o,
    sub <> "add" -> sub <> "checkout" ->
    (fun c =>
       (exists sub rest, call_args c = "git" :: sub :: rest)
       /\ call_capture c = negb (call_check c)
       /\ (call_check c = true
           <-> exists x, call_args c = add_cmd x
                         \/ call_args c = ["git"; "checkout"; x]))
      (mkCall ("git" :: sub :: rest) true false o)).
  { intros sub rest o N1 N2. simpl. split; [now exists sub, rest|].
    split; [reflexivity|]. split; [discriminate|].
    intros (x & [E|E]); injection E; intros; congruence. }
  destruct req as [u d|m fs|r b| | |n c]; simpl.
  - rewrite git_clone_run. cbv zeta. eexists.
    split; [reflexivity|]. split; [discriminate|]. split; [simpl; lia|].
    constructor; [|constructor].
    destruct d as [d|]; [destruct (PyStr.truthy d)|];
      apply Captured; discriminate.
  - destruct (git_commit_shape m fs st) as (issued & H1 & H2 & H3 & H4).
    exists issued. repeat (split; [assumption|]).
    eapply Forall_impl; [|exact H4]. intros a
      [(A1 & A2 & p & _ & A3)|(A1 & A2 & A3)]; rewrite A1, A2, A3.
    + split; [now exists "add", [p]|]. split; [reflexivity|].
      split; [|reflexivity]. intros _. exists p. now left.
    + split; [now exists "commit", ["-m"; m]|]. split; [reflexivity|].
      split; [discriminate|]. intros (x & [E|E]); discriminate.
  - rewrite git_push_run. cbv zeta. eexists.
    split; [reflexivity|]. split; [discriminate|]. split; [simpl; lia|].
    constructor; [|constructor]. apply Captured; discriminate.
  - rewrite git_status_run. cbv zeta. eexists.
    split; [reflexivity|]. split; [discriminate|]. split; [simpl; lia|].
    constructor; [|constructor]. apply Captured; discriminate.
  - rewrite git_branch_list_run. cbv zeta. eexists.
    split; [reflexivity|]. split; [discriminate|]. split; [simpl; lia|].
    constructor; [|constructor]. apply Captured; discriminate.
  - rewrite git_create_branch_run. cbv zeta.
    assert (Switch : forall o,
      (fun c =>
         (exists sub rest, call_args c = "git" :: sub :: rest)
         /\ call_capture c = negb (call_check c)
         /\ (call_check c = true
             <-> exists x, call_args c = add_cmd x
                           \/ call_args c = ["git"; "checkout"; x]))
        (mkCall ["git"; "checkout"; n] false true o)).
    { intros o. simpl. split; [now exists "checkout", [n]|].
      split; [reflexivity|]. split; [|reflexivity].
      intros _. exists n. now right. }
    destruct (fst (spawn ["git"; "branch"; n] true (world st))) as [msg|r].
    + eexists. split; [reflexivity|]. split; [discriminate|].
      split; [simpl; lia|].
      constructor; [|constructor]. apply Captured; discriminate.
    + destruct (with_default true c && (returncode r =? 0)%Z).
      * eexists. split; [reflexivity|]. split; [discriminate|].
        split; [simpl; lia|].
        constructor; [apply Captured; discriminate|].
        constructor; [apply Switch | constructor].
      * eexists. split; [reflexivity|]. split; [discriminate|].
        split; [simpl; lia|].
        constructor; [|constructor]. apply Captured; discriminate.
Qed.

(** X4. What the [error] field tells.  For [git_clone] and [git_push],
    which issue one call, it is always present: it holds the stderr of
    the process when the process ran, and the message of the launch
    failure otherwise.  For the four other operations it is present
    exactly when a call raised, that is when a process could not be
    launched or a checked call exited with a non-zero status. *)
Theorem error_field_tells_exception (req : OperationRequest)
        (st : State World) :
  exists d issued,
    fst (invoke spawn cpe_str req st) = Ok d
    /\ calls (snd (invoke spawn cpe_str req st)) = calls st ++ issued
    /\ match req with
       | Clone _ _ | Push _ _ =>
           exists c,
             issued = [c]
             /\ dict_get "error" d
                = Some (PyStr match call_outcome c with
                              | inr r => stderr r
                              | inl msg => msg
                              end)
       | _ =>
           dict_get "error" d = None
           <-> Forall (fun c => call_raised c = None) issued
       end.
Proof.
  assert (Other : forall req',
    (forall r, match req' with
               | Clone _ _ | Push _ _ => Some (PyStr (stderr r))
               | _ => None
               end = None) ->
    exists d issued,
      fst (invoke spawn cpe_str req' st) = Ok d
      /\ calls (snd (invoke spawn cpe_str req' st)) = calls st ++ issued
      /\ (dict_get "error" d = None
          <-> Forall (fun c => call_raised c = None) issued)).
  { intros req' Hreq.
    destruct (invoke_run_shape req' st)
      as (d & before & last & H1 & H2 & H3 & H4).
    exists d, (before ++ [last]). split; [exact H1|]. split; [exact H2|].
    assert (B : Forall (fun c => call_raised c = None) before)
      by (eapply Forall_impl; [|exact H3]; exact call_exit0_not_raised).
    rewrite Forall_app.
    destruct (call_raised last) as [e|] eqn:R.
    - subst d. split; [discriminate|]. intros [_ X].
      inversion X; subst. congruence.
    - destruct H4 as (r & _ & _ & He). rewrite Hreq in He.
      split; [|intros _; exact He]. intros _.
      split; [exact B|]. now repeat constructor. }
  destruct req as [u dst|m fs|rm b| | |n c].
  - simpl. rewrite git_clone_run. cbv zeta. do 2 eexists.
    split; [reflexivity|]. split; [reflexivity|].
    eexists. split; [reflexivity|]. simpl.
    match goal with |- context [fst (spawn ?a ?b ?w)] =>
      destruct (fst (spawn a b w)) end; reflexivity.
  - exact (Other (Commit m fs) (fun _ => eq_refl)).
  - simpl. rewrite git_push_run. cbv zeta. do 2 eexists.
    split; [reflexivity|]. split; [reflexivity|].
    eexists. split; [reflexivity|]. simpl.
    match goal with |- context [fst (spawn ?a ?b ?w)] =>
      destruct (fst (spawn a b w)) end; reflexivity.
  - exact (Other Status (fun _ => eq_refl)).
  - exact (Other BranchList (fun _ => eq_refl)).
  - exact (Other (CreateBranch n c) (fun _ => eq_refl)).
Qed.

(** X5. When the creation call of [git_create_branch] completes with a
    non-zero exit status, it is the only call issued, and the response
    still reports the [checkout] flag as it was requested: with the
    default, [checked_out: True] beside [success: False]. *)
Theorem git_create_branch_failed_creation (branch_name : string)
        (checkout : option bool) (st : State World)
        (r : CompletedProcess) (w' : World) :
  spawn ["git"; "branch"; branch_name] true (world st) = (inr r, w') ->
  returncode r <> 0%Z ->
  fst (git_create_branch spawn cpe_str branch_name checkout st)
  = Ok [("success", PyBool false);
        ("branch", PyStr branch_name);
        ("checked_out", PyBool (with_default true checkout))]
  /\ calls (snd (git_create_branch spawn cpe_str branch_name checkout st))
     = calls st ++ [mkCall ["git"; "branch"; branch_name] true false (inr r)].
Proof.
  intros H Hr. rewrite git_create_branch_run. cbv zeta. rewrite H. simpl.
  apply Z.eqb_neq in Hr. rewrite Hr, andb_false_r. now split.
Qed.

(** X6. [git_status] computes [clean] from stdout whatever the exit
    status: when the process exits with a non-zero status and prints only
    whitespace (or nothing) on stdout, the response is [success: False]
    together with [clean: True], and has no [error] field. *)
Theorem git_status_failed_and_clean (st : State World)
        (r : CompletedProcess) (w' : World) :
  spawn status_cmd true (world st) = (inr r, w') ->
  returncode r <> 0%Z ->
  Spec.all_whitespace (stdout r) = true ->
  exists d,
    fst (git_status spawn cpe_str st) = Ok d
    /\ d = [("success", PyBool false);
            ("status", PyStr (stdout r));
            ("clean", PyBool true)]
    /\ dict_get "error" d = None.
Proof.
  intros H Hr Hw. rewrite git_status_run. simpl. rewrite H. simpl.
  apply Z.eqb_neq in Hr. rewrite Hr, strip_all_whitespace, Hw.
  eexists. repeat split.
Qed.

(** X7. When the last call issued by [git_commit] is a staging call, that
    call did not exit with status 0 and the response is the error response
    of its exception: the launch error, or the [CalledProcessError] naming
    the exit status and the [git add] command of that path.  The response
    then has neither [commit_message] nor [output]. *)
Theorem git_commit_stage_failure (message : string)
        (files : option (list string)) (st : State World)
        (good : list Call) (failed : Call) (bad : string) :
  calls (snd (git_commit spawn cpe_str message files st))
  = calls st ++ good ++ [failed] ->
  call_args failed = add_cmd bad ->
  ~ call_exit0 failed
  /\ exists d,
      fst (git_commit spawn cpe_str message files st) = Ok d
      /\ d = [("success", PyBool false);
              ("error",
               PyStr match call_outcome failed with
                     | inl msg => msg
                     | inr r => cpe_str (returncode r) ["git"; "add"; bad]
                     end)]
      /\ dict_get "commit_message" d = None
      /\ dict_get "output" d = None.
Proof.
  intros Hc Ha.
  destruct (git_commit_cases World spawn cpe_str message files st) as
    [(staged & c & H1 & H2 & H3 & H4 & H5 & H6)
    |(pre & bad' & post & good' & failed' & e & H1 & H2 & H3 & H4 & H5 & H6 & H7 & H8)].
  - rewrite Hc in H1. apply app_inv_head in H1.
    apply app_inj_tail in H1. destruct H1 as [_ <-].
    rewrite Ha in H4. now apply add_cmd_not_commit_cmd in H4.
  - rewrite Hc in H2. apply app_inv_head in H2.
    apply app_inj_tail in H2. destruct H2 as [_ <-].
    split; [exact H7|]. eexists. split; [exact H8|].
    unfold call_raised in H6. rewrite Ha in H6.
    destruct (call_outcome failed) as [msg|r].
    + injection H6 as <-. repeat split.
    + destruct (call_check failed && negb (returncode r =? 0)%Z);
        [|discriminate].
      injection H6 as <-. repeat split.
Qed.

(** X8. When the branch listing process exits with status 0 and prints a
    listing in git's format (one line per branch, the current one marked,
    plain names), the [branches] field is the list of the names, in the
    order printed, the marked one included. *)
Theorem git_branch_list_reads_listing (st : State World)
        (entries : list (bool * string)) (err : string) (w' : World) :
  forallb (fun entry => plain_name (snd entry)) entries = true ->
  spawn branch_list_cmd true (world st)
  = (exited 0 (listing entries) err, w') ->
  fst (git_branch_list spawn cpe_str st)
  = Ok [("success", PyBool true);
        ("branches", PyList (map snd entries))].
Proof.
  intros Hn H. rewrite git_branch_list_run. simpl. rewrite H. simpl.
  do 3 f_equal. f_equal. f_equal.
  clear H. induction entries as [|e es IH]; [reflexivity|].
  simpl in Hn. apply andb_true_iff in Hn. destruct Hn as [He Hes].
  change (listing (e :: es))
    with (listing_line e ++ String PyStr.LF (listing es))%string.
  rewrite branch_names_append_line, branch_names_listing_line by exact He.
  simpl. now rewrite IH.
Qed.

End AdapterInvariants.

(** X9. Parsing goes line by line: the names of two texts joined by a line
    feed are the names of the first followed by the names of the second. *)
Theorem branch_names_of_joined_texts (a b : string) :
  branch_names (a ++ NL ++ b) = branch_names a ++ branch_names b.
Proof. exact (branch_names_append_line a b). Qed.

(** X10. The parsed sequence is empty exactly when every character of the
    raw output is whitespace, the test [git_status] uses for [clean]. *)
Theorem branch_names_empty_iff (raw : string) :
  branch_names raw = []
  <-> (PyStr.len (PyStr.strip raw) =? 0)%Z = true.
Proof.
  rewrite strip_all_whitespace, <- blank_lines_all_whitespace.
  unfold branch_names. rewrite <- filter_nil_forallb.
  split; intros H.
  - now apply map_eq_nil in H.
  - now rewrite H.
Qed.

(** X11. Every parsed name is free of line feeds, has no whitespace at its
    end, and does not start with the marker or a space. *)
Theorem branch_names_are_stripped (raw name : string) :
  In name (branch_names raw) ->
  ~ In PyStr.LF (list_ascii_of_string name)
  /\ PyStr.rstrip_by PyStr.isspace name = name
  /\ PyStr.lstrip "* " name = name.
Proof.
  unfold branch_names. intros H. apply in_map_iff in H.
  destruct H as (b & <- & Hb). apply filter_In in Hb. destruct Hb as [Hb _].
  split; [|split].
  - intros X. apply lstrip_by_subset in X. unfold PyStr.strip in X.
    apply rstrip_by_subset, lstrip_by_subset in X.
    exact (split_fields_without_separator _ _ _ Hb X).
  - unfold PyStr.lstrip. apply rstrip_by_lstrip_by.
    unfold PyStr.strip. apply rstrip_by_idempotent.
  - unfold PyStr.lstrip. apply lstrip_by_idempotent.
Qed.

(** ** Concrete runs for the invariants *)

(** X5 with the default flag: the branch exists already. *)
Lemma git_create_branch_failed_creation_witness :
  let st := script [exited 128 "" "fatal: a branch named 'dev' already exists"]
  in
  fst (git_create_branch scripted_spawn scripted_cpe_str "dev" None st)
  = Ok [("success", PyBool false);
        ("branch", PyStr "dev");
        ("checked_out", PyBool true)]
  /\ calls (snd (git_create_branch scripted_spawn scripted_cpe_str "dev"
                   None st))
     = calls st
       ++ [mkCall ["git"; "branch"; "dev"] true false
             (exited 128 "" "fatal: a branch named 'dev' already exists")].
Proof.
  refine (git_create_branch_failed_creation Script scripted_spawn
            scripted_cpe_str "dev" None
            (script [exited 128 "" "fatal: a branch named 'dev' already exists"])
            (mkCompleted 128 "" "fatal: a branch named 'dev' already exists")
            [] eq_refl _).
  discriminate.
Defined.

(** X6 outside a repository. *)
Lemma git_status_failed_and_clean_witness :
  exists d,
    fst (git_status scripted_spawn scripted_cpe_str
           (script [exited 128 "" "fatal: not a git repository"]))
    = Ok d
    /\ d = [("success", PyBool false);
            ("status", PyStr "");
            ("clean", PyBool true)]
    /\ dict_get "error" d = None.
Proof.
  refine (git_status_failed_and_clean Script scripted_spawn scripted_cpe_str
            (script [exited 128 "" "fatal: not a git repository"])
            (mkCompleted 128 "" "fatal: not a git repository") []
            eq_refl _ eq_refl).
  discriminate.
Defined.

(** X7 when the second of three paths does not exist. *)
Lemma git_commit_stage_failure_witness :
  let st := script [exited 0 "" ""; exited 128 "" "fatal: pathspec"] in
  let failed :=
    mkCall (add_cmd "b.txt") false true (exited 128 "" "fatal: pathspec") in
  ~ call_exit0 failed
  /\ exists d,
      fst (git_commit scripted_spawn scripted_cpe_str "msg"
             (Some ["a.txt"; "b.txt"; "c.txt"]) st)
      = Ok d
      /\ d = [("success", PyBool false);
              ("error",
               PyStr "Command 'git add b.txt' returned non-zero exit status.")]
      /\ dict_get "commit_message" d = None
      /\ dict_get "output" d = None.
Proof.
  exact (git_commit_stage_failure Script scripted_spawn scripted_cpe_str
           "msg" (Some ["a.txt"; "b.txt"; "c.txt"])
           (script [exited 0 "" ""; exited 128 "" "fatal: pathspec"])
           [mkCall (add_cmd "a.txt") false true (exited 0 "" "")]
           (mkCall (add_cmd "b.txt") false true
              (exited 128 "" "fatal: pathspec"))
           "b.txt" eq_refl eq_refl).
Defined.

(** X8 on a listing of three branches, the second one current. *)
Lemma git_branch_list_reads_listing_witness :
  let entries :=
    [(false, "dev"); (true, "main"); (false, "remotes/origin/main")] in
  fst (git_branch_list scripted_spawn scripted_cpe_str
         (script [exited 0 (listing entries) ""]))
  = Ok [("success", PyBool true);
        ("branches", PyList ["dev"; "main"; "remotes/origin/main"])].
Proof.
  exact (git_branch_list_reads_listing Script scripted_spawn scripted_cpe_str
           (script [exited 0
                      (listing [(false, "dev"); (true, "main");
                                (false, "remotes/origin/main")]) ""])
           [(false, "dev"); (true, "main"); (false, "remotes/origin/main")]
           "" [] eq_refl eq_refl).
Defined.

(** X11 on a name that follows a marker written twice. *)
Lemma branch_names_are_stripped_witness :
  ~ In PyStr.LF (list_ascii_of_string "main")
  /\ PyStr.rstrip_by PyStr.isspace "main" = "main"
  /\ PyStr.lstrip "* " "main" = "main".
Proof.
  refine (branch_names_are_stripped
            ("  dev" ++ NL ++ "* * main  " ++ NL) "main" _).
  simpl. right. left. reflexivity.
Defined.
